(** * Cisco IOS-XR Router Shell 2G: session bring-up and driver glue

    A shallow embedding of

    - [cloudshell/networking/cisco/iosxr/cli/cisco_iosxr_cli_handler.py]
      ([CiscoIOSXRCliHandler.on_session_start]), module [CliHandler];
    - [src/driver.py] ([CiscoIOSXRResourceDriver]), module [Driver];

    together with the properties the specification states about them. *)

From Stdlib Require Import String List Arith Bool Lia.
Import ListNotations.
Local Open Scope string_scope.
Local Open Scope list_scope.

(* ===================================================================== *)
(** * Text matching used for prompts *)
(* ===================================================================== *)

Module Text.

(** [contains pat text]: [pat] occurs somewhere in [text]. *)
Fixpoint contains (pat text : string) : bool :=
  if String.prefix pat text then true
  else match text with
       | EmptyString => false
       | String _ rest => contains pat rest
       end.

(** [ends_with pat text]: [text] ends with [pat]. *)
Fixpoint ends_with (pat text : string) : bool :=
  if String.eqb pat text then true
  else match text with
       | EmptyString => false
       | String _ rest => ends_with pat rest
       end.

End Text.

(* ===================================================================== *)
(** * Python statements: state and exceptions *)
(* ===================================================================== *)

Module PyMonad.

(** A Python statement runs against mutable objects [S] and either returns a
    value or raises an exception [E]; whatever was done to the objects before
    a raise stays done. *)
Definition Py (S E A : Type) : Type := S -> S * (E + A).

Definition ret {S E A} (a : A) : Py S E A := fun s => (s, inr a).

Definition bind {S E A B} (m : Py S E A) (k : A -> Py S E B) : Py S E B :=
  fun s =>
    match m s with
    | (s', inr a) => k a s'
    | (s', inl e) => (s', inl e)
    end.

(** A call to a collaborator that returns or raises without touching [S]. *)
Definition lift {S E A} (r : E + A) : Py S E A := fun s => (s, r).

Declare Scope py_scope.
Delimit Scope py_scope with py.
Notation "m1 ;; m2" := (bind m1 (fun _ => m2))
  (at level 61, right associativity) : py_scope.
Notation "x <- m1 ;; m2" := (bind m1 (fun x => m2))
  (at level 61, m1 at next level, right associativity) : py_scope.

End PyMonad.

(* ===================================================================== *)
(** * The CLI handler: [CiscoIOSXRCliHandler.on_session_start] *)
(* ===================================================================== *)

Module CliHandler.
Import PyMonad.

(** The two command-mode classes the handler imports; each carries a class
    constant [PROMPT]. *)
Inductive CommandMode : Type :=
| EnableCommandMode
| ConfigCommandMode.

(** What the device does after one command was written to the channel. *)
Inductive Reply : Type :=
| Output (text : string)     (* text that arrives before the read gives up *)
| Broken (detail : string).  (* the transport fails *)

(** What a read of the session can raise (spec 6: [TimeoutError],
    [ChannelError]). *)
Inductive SessionException : Type :=
| TimeoutError (partialOutput : string)
| ChannelError (detail : string).

(** What is observable on the wire, in the order it happens. *)
Inductive Event : Type :=
| Sent (command expected_string : string)
| Matched (text : string).

(** The [session] object handed to [on_session_start]: the replies the device
    is still going to give, the events so far, and the prompt pattern at
    which the last successful read stopped (the mode the session is
    believed to be in; [None] before any read). *)
Record Session : Type := mkSession {
  channel : list Reply;
  log : list Event;
  currentMode : option string
}.

(** Statements of the handler run against the session and raise
    [SessionException]s. *)
Definition M (A : Type) : Type := Py Session SessionException A.

(** The state machine of the specification (4.2). *)
Inductive Reason : Type :=
| Timeout (partialOutput : string)
| ChannelFault (detail : string)
| Cancelled.

Inductive State : Type :=
| NotStarted
| Running (stepIndex : nat)
| Completed
| Failed (stepIndex : nat) (reason : Reason).

Definition reason_of (e : SessionException) : Reason :=
  match e with
  | TimeoutError out => Timeout out
  | ChannelError d => ChannelFault d
  end.

(** The result of [on_session_start] that corresponds to a final state. *)
Definition result_of (st : State) : SessionException + unit :=
  match st with
  | Failed _ (Timeout out) => inl (TimeoutError out)
  | Failed _ (ChannelFault d) => inl (ChannelError d)
  | _ => inr tt
  end.

Record BringUpStep : Type := mkStep {
  commandText : string;
  expectedMode : CommandMode
}.

(** Events a call added to the log. *)
Definition emitted (before after : Session) : list Event :=
  skipn (length (log before)) (log after).

(** The commands among a list of events, in order. *)
Fixpoint commands (tr : list Event) : list string :=
  match tr with
  | [] => []
  | Sent c _ :: tr' => c :: commands tr'
  | Matched _ :: tr' => commands tr'
  end.

Section Handler.

(** [EnableCommandMode.PROMPT] and [ConfigCommandMode.PROMPT]: regular
    expressions defined by the imported classes. *)
Variable PROMPT : CommandMode -> string.

(** [re_search pattern text]: does the pattern match the captured text. *)
Variable re_search : string -> string -> bool.

(** Modelled from the spec: [session.hardware_expect(command,
    expected_string, logger)] is a method of the session object of the CLI
    library, which is not part of this repository.  Following 4.2 and 6 it
    writes the command, then reads until the expected pattern matches the
    captured output (success: the output is returned and the session is at
    that prompt) or the time is up (a timeout carrying the unmatched
    output); a transport failure is raised unchanged. *)
Definition hardware_expect (command expected_string : string) : M string :=
  fun s =>
    let sent := log s ++ [Sent command expected_string] in
    match channel s with
    | [] =>
        (mkSession [] sent (currentMode s), inl (TimeoutError ""))
    | Output text :: rest =>
        if re_search expected_string text
        then (mkSession rest (sent ++ [Matched text]) (Some expected_string),
              inr text)
        else (mkSession rest sent (currentMode s), inl (TimeoutError text))
    | Broken detail :: rest =>
        (mkSession rest sent (currentMode s), inl (ChannelError detail))
    end.

(** Modelled from the spec: [_enter_enable_mode] is inherited from
    [CiscoCliHandler], which is not part of this repository; the spec
    (8, scenario 5) gives it as the step ("enter-enable", modeEnable). *)
Definition _enter_enable_mode : M unit :=
  (hardware_expect "enter-enable" (PROMPT EnableCommandMode) ;; ret tt)%py.

(** Modelled from the spec: [_enter_config_mode] is inherited from
    [CiscoCliHandler], which is not part of this repository; the spec
    (8, scenario 5) gives it as the step ("enter-config", modeConfig). *)
Definition _enter_config_mode : M unit :=
  (hardware_expect "enter-config" (PROMPT ConfigCommandMode) ;; ret tt)%py.

(** [CiscoIOSXRCliHandler.on_session_start], statement by statement. *)
Definition on_session_start : M unit :=
  (_enter_enable_mode ;;
   hardware_expect "terminal length 0" (PROMPT EnableCommandMode) ;;
   hardware_expect "terminal width 300" (PROMPT EnableCommandMode) ;;
   _enter_config_mode ;;
   hardware_expect "no logging console" (PROMPT ConfigCommandMode) ;;
   hardware_expect "commit" (PROMPT ConfigCommandMode) ;;
   hardware_expect "exit" (PROMPT EnableCommandMode) ;;
   ret tt)%py.

(** The index of the statement of [on_session_start] that raised: every
    statement writes one command before it reads, so it is the number of
    commands the call wrote, less one. *)
Definition outcome (before : Session)
           (r : Session * (SessionException + unit)) : State :=
  match snd r with
  | inr _ => Completed
  | inl e =>
      Failed (pred (length (commands (emitted before (fst r))))) (reason_of e)
  end.

(** The Sequencer of the specification (4.2), over any list of steps:
    send, read until the expected mode's prompt, go on or fail with the
    index of the step. *)
Fixpoint run_from (i : nat) (steps : list BringUpStep)
  : Session -> Session * State :=
  fun s =>
    match steps with
    | [] => (s, Completed)
    | st :: rest =>
        match hardware_expect (commandText st) (PROMPT (expectedMode st)) s with
        | (s', inr _) => run_from (S i) rest s'
        | (s', inl e) => (s', Failed i (reason_of e))
        end
    end.

Definition bringUp (steps : list BringUpStep) : Session -> Session * State :=
  run_from 0 steps.

(** The step list [on_session_start] hard-codes. *)
Definition on_session_start_steps : list BringUpStep :=
  [ mkStep "enter-enable" EnableCommandMode;
    mkStep "terminal length 0" EnableCommandMode;
    mkStep "terminal width 300" EnableCommandMode;
    mkStep "enter-config" ConfigCommandMode;
    mkStep "no logging console" ConfigCommandMode;
    mkStep "commit" ConfigCommandMode;
    mkStep "exit" EnableCommandMode ].

(** [answers steps replies]: the device answers each step, in order, with
    output in which the step's expected prompt matches. *)
Fixpoint answers (steps : list BringUpStep) (replies : list Reply) : bool :=
  match steps with
  | [] => true
  | st :: steps' =>
      match replies with
      | Output text :: replies' =>
          re_search (PROMPT (expectedMode st)) text && answers steps' replies'
      | _ => false
      end
  end.

(** The expected string of a step. *)
Definition prompt_of (st : BringUpStep) : string := PROMPT (expectedMode st).

(** How many leading steps the device answers with their prompt. *)
Fixpoint answered (steps : list BringUpStep) (replies : list Reply) : nat :=
  match steps, replies with
  | st :: steps', Output text :: replies' =>
      if re_search (prompt_of st) text
      then S (answered steps' replies')
      else 0
  | _, _ => 0
  end.

(** The events of steps that were answered. *)
Fixpoint script (steps : list BringUpStep) (replies : list Reply) : list Event :=
  match steps, replies with
  | st :: steps', Output text :: replies' =>
      Sent (commandText st) (prompt_of st) :: Matched text :: script steps' replies'
  | _, _ => []
  end.

(** The command of step [k], if there is one, alone on the wire. *)
Definition last_send (k : nat) (steps : list BringUpStep) : list Event :=
  match nth_error steps k with
  | Some st => [Sent (commandText st) (prompt_of st)]
  | None => []
  end.

(** The prompt the session is at after [k] steps succeeded. *)
Fixpoint mode_after (k : nat) (steps : list BringUpStep) (m0 : option string)
  : option string :=
  match k, steps with
  | S k', st :: steps' => mode_after k' steps' (Some (prompt_of st))
  | _, _ => m0
  end.

(** Why a read fails, from the reply it got. *)
Definition reason_at (r : option Reply) : Reason :=
  match r with
  | None => Timeout ""
  | Some (Output text) => Timeout text
  | Some (Broken detail) => ChannelFault detail
  end.

(** [in_list_order steps tr]: every command on the wire is the command of a
    step, sent with that step's prompt as the expected string, at the place
    the list gives it (the command of step [j] is event [2 * j]); and when it
    goes out, every earlier step has had its command sent and its prompt
    matched, at the two places before the next command. *)
Definition in_list_order (steps : list BringUpStep) (tr : list Event) : Prop :=
  forall p c e,
    nth_error tr p = Some (Sent c e) ->
    exists j st,
      p = 2 * j /\ nth_error steps j = Some st /\
      c = commandText st /\ e = prompt_of st /\
      forall i sti,
        i < j -> nth_error steps i = Some sti ->
        nth_error tr (2 * i) = Some (Sent (commandText sti) (prompt_of sti)) /\
        exists text,
          nth_error tr (2 * i + 1) = Some (Matched text) /\
          re_search (prompt_of sti) text = true.

(** Step [k] times out: the device answered the [k] steps before it, and for
    step [k] either nothing arrives or output in which the step's prompt does
    not match. *)
Definition times_out_at (k : nat) (steps : list BringUpStep)
           (replies : list Reply) : Prop :=
  answered steps replies = k /\ k < length steps /\
  match nth_error replies k with
  | Some (Broken _) => False
  | _ => True
  end.

End Handler.

End CliHandler.


(* ===================================================================== *)
(** * The resource driver: [CiscoIOSXRResourceDriver] *)
(* ===================================================================== *)

Module Driver.
Import PyMonad.

(** A string-typed argument as the platform passes it: a [str] or [None]. *)
Definition PyStr : Type := option string.

(** Python truth of such a value: [None] and the empty string are false. *)
Definition truthy (v : PyStr) : bool :=
  match v with
  | None => false
  | Some s => negb (String.eqb s "")
  end.

(** Python's [a or b]. *)
Definition py_or (a b : PyStr) : PyStr := if truthy a then a else b.

(** "Empty or absent", and its opposite, for a string-typed argument. *)
Definition empty (v : PyStr) : Prop := v = None \/ v = Some "".

Definition nonempty (v : PyStr) : Prop := exists t, v = Some t /\ t <> "".

Inductive Exception : Type :=
| AttributeError (message : string)
| CollaboratorError (message : string).

(** The attributes of [NetworkingResourceConfig] the driver reads. *)
Record NetworkingResourceConfig : Type := mkConfig {
  name : string;
  vrf_management_name : PyStr
}.

(** [CiscoIOSXRCli(resource_config)]. *)
Record CiscoIOSXRCli : Type := mkCli {
  cli_resource_config : NetworkingResourceConfig
}.

(** The driver instance: its one attribute. *)
Record CiscoIOSXRResourceDriver : Type := mkDriver {
  _cli : option CiscoIOSXRCli
}.

(** [__init__]. *)
Definition __init__ : CiscoIOSXRResourceDriver := mkDriver None.

Definition SUPPORTED_OS : list string := ["IOS[ -]?XR|IOSXR"].
Definition SHELL_NAME : string := "Cisco IOSXR Router 2G".

(** The calls the driver delegates to the flows; these are the ones that
    talk to the device. *)
Inductive FlowCall (RestoreParams : Type) : Type :=
| Autoload_discover (supported_os : list string)
| RunCommand_run_custom_command (custom_command : string)
| RunCommand_run_custom_config_command (custom_command : string)
| Connectivity_apply_connectivity (request : string)
| Configuration_save (folder_path : string)
    (configuration_type vrf_management_name : PyStr)
| Configuration_restore (path : string)
    (restore_method configuration_type vrf_management_name : PyStr)
| Configuration_orchestration_save (mode custom_params : PyStr)
| Configuration_restore_kwargs (restore_params : RestoreParams)
| Firmware_load_firmware (packages_to_install : string) (path : string)
    (vrf_management_name : PyStr)
| State_health_check
| State_shutdown.

Arguments Autoload_discover {RestoreParams}.
Arguments RunCommand_run_custom_command {RestoreParams}.
Arguments RunCommand_run_custom_config_command {RestoreParams}.
Arguments Connectivity_apply_connectivity {RestoreParams}.
Arguments Configuration_save {RestoreParams}.
Arguments Configuration_restore {RestoreParams}.
Arguments Configuration_orchestration_save {RestoreParams}.
Arguments Configuration_restore_kwargs {RestoreParams}.
Arguments Firmware_load_firmware {RestoreParams}.
Arguments State_health_check {RestoreParams}.
Arguments State_shutdown {RestoreParams}.

(** The collaborators of the driver: the platform's context helpers, the
    save/restore helper and the flows. *)
Record Platform : Type := mkPlatform {
  Context : Type;
  Api : Type;
  Logger : Type;
  RestoreParams : Type;
  (* [LoggingSessionContext(context).__enter__()] *)
  LoggingSessionContext : Context -> Exception + Logger;
  (* [CloudShellSessionContext(context).get_api()] *)
  get_api : Context -> Exception + Api;
  (* [NetworkingResourceConfig.from_context(context=context, api=api)] *)
  from_context : Context -> Api -> Exception + NetworkingResourceConfig;
  (* [OrchestrationSaveRestore(logger, name).prepare_orchestration_save_result] *)
  prepare_orchestration_save_result : string -> string -> Exception + string;
  (* [OrchestrationSaveRestore(logger, name).parse_orchestration_save_result] *)
  parse_orchestration_save_result : string -> string -> Exception + RestoreParams;
  (* what a flow's call returns or raises *)
  flow : FlowCall RestoreParams -> Exception + string
}.

Section Methods.

Variable P : Platform.

(** What a command does that is visible from outside, in order. *)
Inductive Event : Type :=
| LockAcquired
| LockReleased
| LoggerInfo (message : string)
| Delegated (call : FlowCall (RestoreParams P)).

Definition is_device_interaction (e : Event) : bool :=
  match e with
  | Delegated _ => true
  | _ => false
  end.

(** The objects a command method works on: the driver instance and the
    outside world's record of what happened. *)
Record World : Type := mkWorld {
  self : CiscoIOSXRResourceDriver;
  trace : list Event
}.

Definition D (A : Type) : Type := Py World Exception A.

Definition emit (e : Event) : D unit :=
  fun w => (mkWorld (self w) (trace w ++ [e]), inr tt).

(** [logger.info(message)]. *)
Definition logger_info (message : string) : D unit := emit (LoggerInfo message).

(** A call of a flow method. *)
Definition delegate (call : FlowCall (RestoreParams P)) : D string :=
  (emit (Delegated call) ;; lift (flow P call))%py.

(** [@GlobalLock.lock]: the body runs with the driver's lock held. *)
Definition GlobalLock_lock {A} (body : D A) : D A :=
  fun w =>
    match body (mkWorld (self w) (trace w ++ [LockAcquired])) with
    | (w', r) => (mkWorld (self w') (trace w' ++ [LockReleased]), r)
    end.

(** The handler object [get_cli_handler] builds. *)
Record CliHandlerObject : Type := mkHandler {
  handler_cli : CiscoIOSXRCli;
  handler_config : NetworkingResourceConfig;
  handler_logger : Logger P
}.

(** [self._cli.get_cli_handler(resource_config, logger)]: an attribute lookup
    on [self._cli], which is [None] until [initialize] ran. *)
Definition self_cli_get_cli_handler (resource_config : NetworkingResourceConfig)
           (logger : Logger P) : D CliHandlerObject :=
  fun w =>
    match _cli (self w) with
    | None =>
        (w, inl (AttributeError
                   "'NoneType' object has no attribute 'get_cli_handler'"))
    | Some cli => (w, inr (mkHandler cli resource_config logger))
    end.

(** The two lines every method starts with after opening its logger. *)
Definition api_and_config (context : Context P) : D NetworkingResourceConfig :=
  (api <- lift (get_api P context) ;;
   lift (from_context P context api))%py.

Definition initialize (context : Context P) : D string :=
  (resource_config <- api_and_config context ;;
   (fun w => (mkWorld (mkDriver (Some (mkCli resource_config))) (trace w), inr tt)) ;;
   ret "Finished initializing")%py.

(** The command methods.  Between the lookup of the handler and the call of
    the flow they only build objects (the flow, and for [get_inventory] the
    SNMP handler and the resource model of lines 71-81); these constructions
    are taken to return, and only the call of the flow is recorded. *)
Definition get_inventory (context : Context P) : D PyStr :=
  GlobalLock_lock
    (logger <- lift (LoggingSessionContext P context) ;;
     logger_info "Starting 'Autoload' command ..." ;;
     resource_config <- api_and_config context ;;
     cli_handler <- self_cli_get_cli_handler resource_config logger ;;
     response <- delegate (Autoload_discover SUPPORTED_OS) ;;
     logger_info "'Autoload' command completed" ;;
     ret (Some response))%py.

Definition run_custom_command (context : Context P) (custom_command : string)
  : D PyStr :=
  (logger <- lift (LoggingSessionContext P context) ;;
   logger_info "Starting 'Run Custom Command' command ..." ;;
   resource_config <- api_and_config context ;;
   cli_handler <- self_cli_get_cli_handler resource_config logger ;;
   response <- delegate (RunCommand_run_custom_command custom_command) ;;
   logger_info "'Run Custom Command' command completed" ;;
   ret (Some response))%py.

Definition run_custom_config_command (context : Context P)
           (custom_command : string) : D PyStr :=
  (logger <- lift (LoggingSessionContext P context) ;;
   logger_info "Starting 'Run Custom Config Command' command ..." ;;
   resource_config <- api_and_config context ;;
   cli_handler <- self_cli_get_cli_handler resource_config logger ;;
   response <- delegate (RunCommand_run_custom_config_command custom_command) ;;
   logger_info "'Run Custom Config Command' command completed" ;;
   ret (Some response))%py.

Definition ApplyConnectivityChanges (context : Context P) (request : string)
  : D PyStr :=
  (logger <- lift (LoggingSessionContext P context) ;;
   logger_info "Starting 'Apply Connectivity Changes' command ..." ;;
   logger_info ("Request: " ++ request) ;;
   resource_config <- api_and_config context ;;
   cli_handler <- self_cli_get_cli_handler resource_config logger ;;
   result <- delegate (Connectivity_apply_connectivity request) ;;
   logger_info ("'Apply Connectivity Changes' command completed with result '"
                ++ result ++ "'") ;;
   ret (Some result))%py.

Definition save (context : Context P) (folder_path : string)
           (configuration_type vrf_management_name : PyStr) : D PyStr :=
  (logger <- lift (LoggingSessionContext P context) ;;
   logger_info "Starting 'Save' command ..." ;;
   resource_config <- api_and_config context ;;
   let configuration_type := py_or configuration_type (Some "running") in
   let vrf_management_name :=
     py_or vrf_management_name (Driver.vrf_management_name resource_config) in
   cli_handler <- self_cli_get_cli_handler resource_config logger ;;
   response <- delegate (Configuration_save folder_path configuration_type
                                            vrf_management_name) ;;
   logger_info "'Save' command completed" ;;
   ret (Some response))%py.

Definition restore (context : Context P) (path : string)
           (configuration_type restore_method vrf_management_name : PyStr)
  : D PyStr :=
  GlobalLock_lock
    (logger <- lift (LoggingSessionContext P context) ;;
     logger_info "Starting 'Restore' command ..." ;;
     resource_config <- api_and_config context ;;
     let configuration_type := py_or configuration_type (Some "running") in
     let restore_method := py_or restore_method (Some "override") in
     let vrf_management_name :=
       py_or vrf_management_name (Driver.vrf_management_name resource_config) in
     cli_handler <- self_cli_get_cli_handler resource_config logger ;;
     delegate (Configuration_restore path restore_method configuration_type
                                     vrf_management_name) ;;
     logger_info "'Restore' command completed" ;;
     ret None)%py.

Definition orchestration_save (context : Context P) (mode custom_params : PyStr)
  : D PyStr :=
  (logger <- lift (LoggingSessionContext P context) ;;
   logger_info "Starting 'Orchestration Save' command ..." ;;
   resource_config <- api_and_config context ;;
   let mode := py_or mode (Some "shallow") in
   cli_handler <- self_cli_get_cli_handler resource_config logger ;;
   response <- delegate (Configuration_orchestration_save mode custom_params) ;;
   response_json <- lift (prepare_orchestration_save_result P
                            (name resource_config) response) ;;
   logger_info "'Orchestration Save' command completed" ;;
   ret (Some response_json))%py.

Definition orchestration_restore (context : Context P)
           (saved_artifact_info : string) (custom_params : PyStr) : D PyStr :=
  (logger <- lift (LoggingSessionContext P context) ;;
   logger_info "Starting 'Orchestration Restore' command ..." ;;
   resource_config <- api_and_config context ;;
   cli_handler <- self_cli_get_cli_handler resource_config logger ;;
   restore_params <- lift (parse_orchestration_save_result P
                             (name resource_config) saved_artifact_info) ;;
   delegate (Configuration_restore_kwargs restore_params) ;;
   logger_info "'Orchestration Restore' command completed" ;;
   ret None)%py.

Definition load_firmware (context : Context P) (path : string)
           (features_to_install : string) (vrf_management_name : PyStr)
  : D PyStr :=
  GlobalLock_lock
    (logger <- lift (LoggingSessionContext P context) ;;
     logger_info "Starting 'Load Firmware' command ..." ;;
     resource_config <- api_and_config context ;;
     let vrf_management_name :=
       py_or vrf_management_name (Driver.vrf_management_name resource_config) in
     cli_handler <- self_cli_get_cli_handler resource_config logger ;;
     delegate (Firmware_load_firmware features_to_install path
                                      vrf_management_name) ;;
     logger_info "'Load Firmware' command completed" ;;
     ret None)%py.

Definition health_check (context : Context P) : D PyStr :=
  (logger <- lift (LoggingSessionContext P context) ;;
   logger_info "Starting 'Health Check' command ..." ;;
   resource_config <- api_and_config context ;;
   cli_handler <- self_cli_get_cli_handler resource_config logger ;;
   result <- delegate State_health_check ;;
   logger_info ("'Health Check' command completed with result '"
                ++ result ++ "'") ;;
   ret (Some result))%py.

Definition cleanup : D PyStr := ret None.

Definition shutdown (context : Context P) : D PyStr :=
  (logger <- lift (LoggingSessionContext P context) ;;
   logger_info "Starting 'Shutdown' command ..." ;;
   resource_config <- api_and_config context ;;
   cli_handler <- self_cli_get_cli_handler resource_config logger ;;
   delegate State_shutdown ;;
   logger_info "'Shutdown' command completed" ;;
   ret None)%py.

(** The command methods that use the CLI, with their arguments. *)
Inductive Command : Type :=
| Call_get_inventory
| Call_run_custom_command (custom_command : string)
| Call_run_custom_config_command (custom_command : string)
| Call_ApplyConnectivityChanges (request : string)
| Call_save (folder_path : string) (configuration_type vrf_management_name : PyStr)
| Call_restore (path : string)
    (configuration_type restore_method vrf_management_name : PyStr)
| Call_orchestration_save (mode custom_params : PyStr)
| Call_orchestration_restore (saved_artifact_info : string) (custom_params : PyStr)
| Call_load_firmware (path features_to_install : string)
    (vrf_management_name : PyStr)
| Call_health_check
| Call_shutdown.

Definition invoke (c : Command) (context : Context P) : D PyStr :=
  match c with
  | Call_get_inventory => get_inventory context
  | Call_run_custom_command cmd => run_custom_command context cmd
  | Call_run_custom_config_command cmd => run_custom_config_command context cmd
  | Call_ApplyConnectivityChanges request => ApplyConnectivityChanges context request
  | Call_save folder_path ct vrf => save context folder_path ct vrf
  | Call_restore path ct rm vrf => restore context path ct rm vrf
  | Call_orchestration_save mode cp => orchestration_save context mode cp
  | Call_orchestration_restore info cp => orchestration_restore context info cp
  | Call_load_firmware path features vrf => load_firmware context path features vrf
  | Call_health_check => health_check context
  | Call_shutdown => shutdown context
  end.

(** Events a call added to the trace. *)
Definition new_events (before after : World) : list Event :=
  skipn (length (trace before)) (trace after).

(** The flow calls among a list of events, in order. *)
Fixpoint delegated (tr : list Event) : list (FlowCall (RestoreParams P)) :=
  match tr with
  | [] => []
  | Delegated call :: tr' => call :: delegated tr'
  | _ :: tr' => delegated tr'
  end.

(** The context helpers work for this context: the logger opens, the API
    session is there and the resource configuration is read. *)
Definition context_ready (context : Context P)
           (resource_config : NetworkingResourceConfig) : Prop :=
  exists logger api,
    LoggingSessionContext P context = inr logger /\
    get_api P context = inr api /\
    from_context P context api = inr resource_config.

(** The methods decorated with [@GlobalLock.lock]. *)
Definition locked (c : Command) : bool :=
  match c with
  | Call_get_inventory => true
  | Call_restore _ _ _ _ => true
  | Call_load_firmware _ _ _ => true
  | _ => false
  end.

Definition is_lock_event (e : Event) : bool :=
  match e with
  | LockAcquired => true
  | LockReleased => true
  | _ => false
  end.

(** The messages given to [logger.info], in order. *)
Fixpoint logged (tr : list Event) : list string :=
  match tr with
  | [] => []
  | LoggerInfo message :: tr' => message :: logged tr'
  | _ :: tr' => logged tr'
  end.

(** The messages that report a command as completed: they open with the
    quoted name of the command ("'Save' command completed"), while the
    others open with "Starting" or "Request:". *)
Definition is_completion (message : string) : bool :=
  String.prefix "'" message && Text.contains "' command completed" message.

(** The arguments the driver has a default for are filled in. *)
Definition defaults_filled (call : FlowCall (RestoreParams P)) : bool :=
  match call with
  | Configuration_save _ configuration_type _ => truthy configuration_type
  | Configuration_restore _ restore_method configuration_type _ =>
      truthy restore_method && truthy configuration_type
  | Configuration_orchestration_save mode _ => truthy mode
  | _ => true
  end.

(** What a method returns for the answer [response] of its flow: the answer
    itself, [None] for the methods without a [return], and for
    [orchestration_save] what the save/restore helper makes of the answer. *)
Definition returns (c : Command) (response : string) (value : PyStr) : Prop :=
  match c with
  | Call_restore _ _ _ _ => value = None
  | Call_orchestration_restore _ _ => value = None
  | Call_load_firmware _ _ _ => value = None
  | Call_shutdown => value = None
  | Call_orchestration_save _ _ =>
      exists resource_name response_json,
        prepare_orchestration_save_result P resource_name response
        = inr response_json /\
        value = Some response_json
  | _ => value = Some response
  end.

End Methods.

End Driver.

(* ===================================================================== *)
(** * A concrete device, for running the definitions *)
(* ===================================================================== *)

Module Examples.
Import CliHandler.

(** Literal prompts in place of the library's regular expressions. *)
Definition PROMPT (m : CommandMode) : string :=
  match m with
  | EnableCommandMode => "router#"
  | ConfigCommandMode => "(config)#"
  end.

Definition re_search : string -> string -> bool := Text.ends_with.

Definition at_enable : Reply := Output "RP/0/RSP0/CPU0:router#".
Definition at_config : Reply := Output "RP/0/RSP0/CPU0:router(config)#".

(** A freshly opened session over a device that will give these replies. *)
Definition fresh (replies : list Reply) : Session := mkSession replies [] None.

(** The device answers all seven commands. *)
Definition healthy : Session :=
  fresh [at_enable; at_enable; at_enable; at_config; at_config; at_config; at_enable].

(** The device answers two commands and then stays silent. *)
Definition silent_after_two : Session := fresh [at_enable; at_enable].

(** A session that was used before and is in configuration mode. *)
Definition reused : Session :=
  mkSession [at_enable; at_enable] [Sent "show version" "router#"] (Some "(config)#").

(** A platform on which every collaborator succeeds. *)
Definition resource_config : Driver.NetworkingResourceConfig :=
  Driver.mkConfig "router-1" (Some "mgmt").

Definition platform : Driver.Platform :=
  Driver.mkPlatform unit unit unit unit
    (fun _ => inr tt)
    (fun _ => inr tt)
    (fun _ _ => inr resource_config)
    (fun _ response => inr response)
    (fun _ _ => inr tt)
    (fun _ => inr "ok").

(** A driver right after [__init__], and one after [initialize]. *)
Definition uninitialized : Driver.World platform :=
  Driver.mkWorld platform Driver.__init__ [].

Definition initialized : Driver.World platform :=
  Driver.mkWorld platform
    (Driver.mkDriver (Some (Driver.mkCli resource_config))) [].

(** A platform whose device cannot be reached: every flow call raises. *)
Definition unreachable : Driver.Platform :=
  Driver.mkPlatform unit unit unit unit
    (fun _ => inr tt)
    (fun _ => inr tt)
    (fun _ _ => inr resource_config)
    (fun _ response => inr response)
    (fun _ _ => inr tt)
    (fun _ => inl (Driver.CollaboratorError "session timeout")).

(** A platform on which the logging session does not open. *)
Definition no_logger : Driver.Platform :=
  Driver.mkPlatform unit unit unit unit
    (fun _ => inl (Driver.CollaboratorError "no log folder"))
    (fun _ => inr tt)
    (fun _ _ => inr resource_config)
    (fun _ response => inr response)
    (fun _ _ => inr tt)
    (fun _ => inr "ok").

End Examples.

(* ===================================================================== *)
(** * Lists *)
(* ===================================================================== *)

Module ListFacts.

(** Dropping a prefix of known length. *)
Lemma skipn_length_app {A} (l x : list A) : skipn (length l) (l ++ x) = x.
Proof. induction l; simpl; auto. Qed.

End ListFacts.

(* ===================================================================== *)
(** * Facts about the session bring-up *)
(* ===================================================================== *)

Module CliHandlerFacts.
Import PyMonad CliHandler.

Section Facts.

Variable PROMPT : CommandMode -> string.
Variable re_search : string -> string -> bool.

Local Abbreviation hardware_expect := (hardware_expect re_search).
Local Abbreviation run_from := (run_from PROMPT re_search).
Local Abbreviation bringUp := (bringUp PROMPT re_search).
Local Abbreviation on_session_start := (on_session_start PROMPT re_search).
Local Abbreviation answers := (answers PROMPT re_search).
Local Abbreviation prompt_of := (prompt_of PROMPT).
Local Abbreviation answered := (answered PROMPT re_search).
Local Abbreviation script := (script PROMPT).
Local Abbreviation last_send := (last_send PROMPT).
Local Abbreviation mode_after := (mode_after PROMPT).
Local Abbreviation times_out_at := (times_out_at PROMPT re_search).
Local Abbreviation in_list_order := (in_list_order PROMPT re_search).

Lemma answered_le steps replies : answered steps replies <= length steps.
Proof.
  revert replies; induction steps as [|st steps IH]; intros [|[t|d] replies];
    simpl; try lia.
  destruct (re_search _ _); [specialize (IH replies)|]; lia.
Qed.

(** [run_from] in closed form. *)
Lemma run_from_closed steps : forall i s,
  let k := answered steps (channel s) in
  run_from i steps s =
    (mkSession
       (skipn (k + (if Nat.ltb k (length steps) then 1 else 0)) (channel s))
       (log s ++ script (firstn k steps) (channel s) ++ last_send k steps)
       (mode_after k steps (currentMode s)),
     match nth_error steps k with
     | None => Completed
     | Some _ => Failed (i + k) (reason_at (nth_error (channel s) k))
     end).
Proof.
  induction steps as [|st steps IH]; intros i [ch lg m]; simpl.
  - now rewrite app_nil_r.
  - unfold CliHandler.hardware_expect; simpl.
    destruct ch as [|[t|d] ch]; simpl.
    + now rewrite Nat.add_0_r.
    + fold (prompt_of st). destruct (re_search (prompt_of st) t) eqn:E; simpl.
      * rewrite IH; simpl.
        change (Nat.ltb (S (answered steps ch)) (S (length steps)))
          with (Nat.ltb (answered steps ch) (length steps)).
        rewrite <- !app_assoc; simpl. now rewrite Nat.add_succ_r.
      * now rewrite Nat.add_0_r.
    + now rewrite Nat.add_0_r.
Qed.

(** What a run adds to the log. *)
Lemma emitted_run_from steps i s :
  emitted s (fst (run_from i steps s)) =
    script (firstn (answered steps (channel s)) steps) (channel s)
    ++ last_send (answered steps (channel s)) steps.
Proof.
  rewrite run_from_closed; unfold emitted; simpl. apply ListFacts.skipn_length_app.
Qed.

(** The commands of a run: those of the answered steps and of the one after
    them, if any. *)
Lemma commands_script steps : forall replies,
  let k := answered steps replies in
  commands (script (firstn k steps) replies ++ last_send k steps) =
    map commandText (firstn (k + (if Nat.ltb k (length steps) then 1 else 0)) steps).
Proof.
  induction steps as [|st steps IH]; intros replies; simpl; [reflexivity|].
  destruct replies as [|[t|d] replies]; simpl; try reflexivity.
  destruct (re_search (prompt_of st) t); simpl; [|reflexivity].
  change (Nat.ltb (S (answered steps replies)) (S (length steps)))
    with (Nat.ltb (answered steps replies) (length steps)).
  unfold CliHandler.last_send in *; simpl. f_equal. apply IH.
Qed.

Lemma answers_answered steps : forall replies,
  answers steps replies = true <-> answered steps replies = length steps.
Proof.
  induction steps as [|st steps IH]; intros replies; simpl; [tauto|].
  destruct replies as [|[t|d] replies]; try (split; [discriminate|lia]).
  fold (prompt_of st).
  destruct (re_search (prompt_of st) t); simpl; [|split; [discriminate|lia]].
  rewrite IH; split; lia.
Qed.

Lemma mode_after_last k : forall steps m0 st,
  nth_error steps k = Some st ->
  mode_after (S k) steps m0 = Some (prompt_of st).
Proof.
  induction k as [|k IH]; intros [|st0 steps] m0 st H; simpl in *; try discriminate.
  - now inversion H.
  - destruct steps as [|st1 steps]; [destruct k; discriminate|].
    now apply (IH (st1 :: steps)).
Qed.

(** [on_session_start] is the Sequencer run on its own list of steps. *)
Lemma on_session_start_run s :
  on_session_start s =
    (fst (bringUp on_session_start_steps s),
     result_of (snd (bringUp on_session_start_steps s))).
Proof.
  cbv beta iota zeta delta
    [CliHandler.on_session_start CliHandler._enter_enable_mode
     CliHandler._enter_config_mode bind ret CliHandler.bringUp
     on_session_start_steps CliHandler.run_from commandText expectedMode].
  repeat match goal with
         | |- context [hardware_expect ?c ?p ?x] =>
             destruct (hardware_expect c p x) as [? [[?|?]|?]]; simpl; auto
         end.
Qed.

(** C1. Happy path: when the device answers each of the seven commands of
    [on_session_start] with output in which the expected prompt matches, the
    call returns normally, the Sequencer on the same list ends in [Completed]
    with the same session, the commands went out in the order of the list,
    and the session is left at the enable prompt, the mode of the last step. *)
Theorem happy_path_completes (s : Session) :
  answers on_session_start_steps (channel s) = true ->
  exists s',
    on_session_start s = (s', inr tt) /\
    bringUp on_session_start_steps s = (s', Completed) /\
    commands (emitted s s') =
      ["enter-enable"; "terminal length 0"; "terminal width 300";
       "enter-config"; "no logging console"; "commit"; "exit"] /\
    commands (emitted s s') = map commandText on_session_start_steps /\
    currentMode s' = Some (PROMPT EnableCommandMode).
Proof.
  intros H. apply answers_answered in H.
  rewrite on_session_start_run. unfold CliHandler.bringUp.
  pose proof (emitted_run_from on_session_start_steps 0 s) as He.
  pose proof (run_from_closed on_session_start_steps 0 s) as Hc.
  cbv zeta in Hc. rewrite H in He, Hc.
  exists (fst (run_from 0 on_session_start_steps s)).
  rewrite He, <- H, commands_script, H. rewrite Hc. simpl. auto.
Qed.

(** Take the next reply off a device that, by [H], answers the next step. *)
Ltac next_reply H ch text E :=
  destruct ch as [|[text|?] ch]; try discriminate H;
  apply andb_prop in H; destruct H as [E H].

(** C2. Whenever the five statements before it succeed, [on_session_start]
    sends "commit" exactly once, as the command right after "no logging
    console" was answered, with the configuration prompt as the expected
    string; nothing in the session or in the rest of the device's replies
    changes that. *)
Theorem commit_sent_once (s : Session) :
  answers (firstn 5 on_session_start_steps) (channel s) = true ->
  let tr := emitted s (fst (on_session_start s)) in
  count_occ string_dec (commands tr) "commit" = 1 /\
  exists before text after,
    tr = before
         ++ Sent "no logging console" (PROMPT ConfigCommandMode) :: Matched text
         :: Sent "commit" (PROMPT ConfigCommandMode) :: after /\
    commands before =
      ["enter-enable"; "terminal length 0"; "terminal width 300"; "enter-config"].
Proof.
  destruct s as [ch lg m]; simpl; intros H.
  next_reply H ch text0 E0. next_reply H ch text1 E1. next_reply H ch text2 E2.
  next_reply H ch text3 E3. next_reply H ch text4 E4.
  rewrite on_session_start_run; unfold CliHandler.bringUp; cbn [fst].
  rewrite emitted_run_from; unfold CliHandler.last_send; simpl.
  unfold CliHandler.prompt_of; simpl.
  rewrite E0, E1, E2, E3, E4; simpl.
  assert (Hshape : forall tl : list Event,
    exists before text after,
      Sent "enter-enable" (PROMPT EnableCommandMode) :: Matched text0
      :: Sent "terminal length 0" (PROMPT EnableCommandMode) :: Matched text1
      :: Sent "terminal width 300" (PROMPT EnableCommandMode) :: Matched text2
      :: Sent "enter-config" (PROMPT ConfigCommandMode) :: Matched text3
      :: Sent "no logging console" (PROMPT ConfigCommandMode) :: Matched text4
      :: Sent "commit" (PROMPT ConfigCommandMode) :: tl
      = before
        ++ Sent "no logging console" (PROMPT ConfigCommandMode) :: Matched text
        :: Sent "commit" (PROMPT ConfigCommandMode) :: after /\
      commands before =
        ["enter-enable"; "terminal length 0"; "terminal width 300"; "enter-config"]).
  { intros tl.
    exists [Sent "enter-enable" (PROMPT EnableCommandMode); Matched text0;
            Sent "terminal length 0" (PROMPT EnableCommandMode); Matched text1;
            Sent "terminal width 300" (PROMPT EnableCommandMode); Matched text2;
            Sent "enter-config" (PROMPT ConfigCommandMode); Matched text3],
           text4, tl.
    split; reflexivity. }
  destruct ch as [|[t5|d5] ch5]; simpl; [split; [reflexivity|apply Hshape]| |].
  - destruct (re_search (PROMPT ConfigCommandMode) t5); simpl.
    + destruct ch5 as [|[t6|d6] ch6]; simpl;
        [| destruct (re_search (PROMPT EnableCommandMode) t6); simpl |];
        (split; [reflexivity|apply Hshape]).
    + split; [reflexivity|apply Hshape].
  - split; [reflexivity|apply Hshape].
Qed.

(** The events of a run are in the order of the list. *)
Lemma script_in_list_order steps : forall replies,
  in_list_order steps
    (script (firstn (answered steps replies) steps) replies
     ++ last_send (answered steps replies) steps).
Proof.
  induction steps as [|st steps IH]; intros replies p c e Hp.
  - destruct p; discriminate Hp.
  - assert (Hone : forall q,
      nth_error [Sent (commandText st) (prompt_of st)] q = Some (Sent c e) ->
      exists j st',
        q = 2 * j /\ nth_error (st :: steps) j = Some st' /\
        c = commandText st' /\ e = prompt_of st' /\
        forall i sti, i < j -> nth_error (st :: steps) i = Some sti ->
          nth_error [Sent (commandText st) (prompt_of st)] (2 * i)
            = Some (Sent (commandText sti) (prompt_of sti)) /\
          exists text,
            nth_error [Sent (commandText st) (prompt_of st)] (2 * i + 1)
              = Some (Matched text) /\
            re_search (prompt_of sti) text = true).
    { intros [|[|[|q]]] Hq; simpl in Hq; try discriminate Hq.
      inversion Hq; subst. exists 0, st. repeat split; auto; lia. }
    simpl in Hp |- *.
    destruct replies as [|[t|d] replies]; simpl in Hp |- *; try (now apply Hone).
    destruct (re_search (CliHandler.prompt_of PROMPT st) t) eqn:E;
      simpl in Hp |- *; try (now apply Hone).
    destruct p as [|[|p]]; simpl in Hp.
    + inversion Hp; subst. exists 0, st. repeat split; auto; lia.
    + discriminate Hp.
    + destruct (IH replies p c e Hp) as (j & st' & -> & Hj & -> & -> & Hprev).
      exists (S j), st'. repeat split; auto; try lia.
      * destruct i as [|i]; simpl in *.
        -- now inversion H0.
        -- replace (i + S (i + 0)) with (S (2 * i)) by lia. simpl.
           apply (Hprev i sti); [lia|assumption].
      * destruct i as [|i]; simpl in *.
        -- inversion H0; subst. exists t. split; auto.
        -- replace (i + S (i + 0) + 1) with (S (2 * i + 1)) by lia. simpl.
           destruct (Hprev i sti) as [_ Ht]; [lia|assumption|]. exact Ht.
Qed.

(** C3. Ordering: for every list of steps and every session (so every
    behaviour of the device), the Sequencer puts the commands on the wire in
    the order of the list, and the command of a step goes out only after the
    prompt of every earlier step was matched in the device's output; the same
    holds of [on_session_start] and its own list; and the commands sent are a
    prefix of the list's. *)
Theorem steps_run_in_list_order (steps : list BringUpStep) (s : Session) :
  in_list_order steps (emitted s (fst (bringUp steps s))) /\
  in_list_order on_session_start_steps (emitted s (fst (on_session_start s))) /\
  exists n,
    n <= length steps /\
    commands (emitted s (fst (bringUp steps s))) = map commandText (firstn n steps).
Proof.
  rewrite on_session_start_run; unfold CliHandler.bringUp; cbn [fst].
  rewrite !emitted_run_from. repeat split; try apply script_in_list_order.
  rewrite commands_script.
  pose proof (answered_le steps (channel s)) as Hle.
  destruct (Nat.ltb_spec (answered steps (channel s)) (length steps)).
  - exists (answered steps (channel s) + 1). split; [lia|reflexivity].
  - exists (answered steps (channel s) + 0). split; [lia|reflexivity].
Qed.

(** The final state of a run, from the device's replies alone. *)
Lemma run_from_state steps i s :
  snd (run_from i steps s) =
    match nth_error steps (answered steps (channel s)) with
    | None => Completed
    | Some _ =>
        Failed (i + answered steps (channel s))
               (reason_at (nth_error (channel s) (answered steps (channel s))))
    end.
Proof. now rewrite run_from_closed. Qed.

Lemma result_of_reason_at i r :
  exists e, result_of (Failed i (reason_at r)) = inl e /\ reason_of e = reason_at r.
Proof.
  destruct r as [[t|d]|]; simpl; eauto.
Qed.

(** The step index read off a run of [on_session_start] is the Sequencer's. *)
Lemma outcome_on_session_start s :
  outcome s (on_session_start s) = snd (bringUp on_session_start_steps s).
Proof.
  rewrite on_session_start_run; unfold outcome, CliHandler.bringUp; cbn [fst snd].
  rewrite emitted_run_from, commands_script, run_from_state.
  pose proof (answered_le on_session_start_steps (channel s)) as Hle.
  destruct (nth_error on_session_start_steps
              (answered on_session_start_steps (channel s))) eqn:E.
  - assert (Hlt : answered on_session_start_steps (channel s)
                  < length on_session_start_steps)
      by (apply nth_error_Some; congruence).
    cbn [Nat.add].
    destruct (result_of_reason_at (answered on_session_start_steps (channel s))
                (nth_error (channel s) (answered on_session_start_steps (channel s))))
      as (e & -> & ->).
    apply Nat.ltb_lt in Hlt as Hb; rewrite Hb.
    rewrite length_map, length_firstn, Nat.min_l by lia.
    f_equal. lia.
  - reflexivity.
Qed.

Lemma mode_after_pred k steps m0 :
  k <= length steps ->
  mode_after k steps m0 =
    match k with
    | 0 => m0
    | S j => option_map prompt_of (nth_error steps j)
    end.
Proof.
  destruct k as [|j]; intros Hk; [now destruct steps|].
  destruct (nth_error steps j) as [st|] eqn:E.
  - now apply mode_after_last.
  - apply nth_error_None in E. lia.
Qed.

(** C4, as the code has it.  If step [k] times out, the Sequencer ends in
    [Failed] with step index [k] and reason [Timeout]; the commands on the
    wire are those of steps [0] to [k], [k + 1] of them: the [k] that were
    answered and the command of step [k] itself, which is written before the
    read that times out; no later command is sent; the session is at the
    prompt it was at after step [k - 1] (at its initial one when [k = 0]);
    and [on_session_start], on its own list, raises that timeout. *)
Theorem timeout_fails_at_step (steps : list BringUpStep) (k : nat) (s : Session) :
  times_out_at k steps (channel s) ->
  exists out,
    snd (bringUp steps s) = Failed k (Timeout out) /\
    commands (emitted s (fst (bringUp steps s))) = map commandText (firstn (S k) steps) /\
    length (commands (emitted s (fst (bringUp steps s)))) = S k /\
    currentMode (fst (bringUp steps s)) =
      match k with
      | 0 => currentMode s
      | S j => option_map prompt_of (nth_error steps j)
      end /\
    (steps = on_session_start_steps ->
     on_session_start s = (fst (bringUp steps s), inl (TimeoutError out))).
Proof.
  intros (Hk & Hlt & Hr). unfold CliHandler.bringUp.
  assert (Hout : exists out, reason_at (nth_error (channel s) k) = Timeout out).
  { destruct (nth_error (channel s) k) as [[t|d]|]; simpl; eauto; contradiction. }
  destruct Hout as [out Hout]. exists out.
  assert (Hst : snd (run_from 0 steps s) = Failed k (Timeout out)).
  { rewrite run_from_state, Hk.
    destruct (nth_error steps k) eqn:E; [now rewrite Hout|].
    apply nth_error_None in E; lia. }
  assert (Hcmd : commands (emitted s (fst (run_from 0 steps s)))
                 = map commandText (firstn (S k) steps)).
  { rewrite emitted_run_from, commands_script, Hk.
    apply Nat.ltb_lt in Hlt as Hb; rewrite Hb. now rewrite Nat.add_1_r. }
  repeat split; auto.
  - rewrite Hcmd, length_map, length_firstn. lia.
  - rewrite run_from_closed; cbv zeta; cbn [fst currentMode]. rewrite Hk.
    apply mode_after_pred; lia.
  - intros ->. rewrite on_session_start_run. unfold CliHandler.bringUp.
    now rewrite Hst.
Qed.

(** C5. Determinism: the run is a function of the list of steps and of the
    device's replies alone.  Two sessions over the same replies, whatever
    else differs between them, see the same commands and matches in the same
    order, end in the same final state (completed, or failed at the same
    step for the same reason) and leave the same replies unread; so does
    [on_session_start], which returns or raises the same. *)
Theorem same_replies_same_run (steps : list BringUpStep) (s1 s2 : Session) :
  channel s1 = channel s2 ->
  snd (bringUp steps s1) = snd (bringUp steps s2) /\
  emitted s1 (fst (bringUp steps s1)) = emitted s2 (fst (bringUp steps s2)) /\
  channel (fst (bringUp steps s1)) = channel (fst (bringUp steps s2)) /\
  snd (on_session_start s1) = snd (on_session_start s2) /\
  emitted s1 (fst (on_session_start s1)) = emitted s2 (fst (on_session_start s2)).
Proof.
  intros H. rewrite !on_session_start_run. unfold CliHandler.bringUp; cbn [fst snd].
  rewrite !emitted_run_from, !run_from_state.
  rewrite !run_from_closed; cbv zeta; cbn [fst channel].
  now rewrite H.
Qed.

End Facts.

Lemma happy_path_completes_witness :
  exists s',
    CliHandler.on_session_start Examples.PROMPT Examples.re_search Examples.healthy
      = (s', inr tt) /\
    CliHandler.bringUp Examples.PROMPT Examples.re_search on_session_start_steps
      Examples.healthy = (s', Completed) /\
    commands (emitted Examples.healthy s') =
      ["enter-enable"; "terminal length 0"; "terminal width 300";
       "enter-config"; "no logging console"; "commit"; "exit"] /\
    commands (emitted Examples.healthy s') = map commandText on_session_start_steps /\
    currentMode s' = Some (Examples.PROMPT EnableCommandMode).
Proof.
  apply (happy_path_completes Examples.PROMPT Examples.re_search Examples.healthy).
  reflexivity.
Defined.

Lemma commit_sent_once_witness :
  let tr := emitted Examples.healthy
              (fst (CliHandler.on_session_start Examples.PROMPT Examples.re_search
                      Examples.healthy)) in
  count_occ string_dec (commands tr) "commit" = 1 /\
  exists before text after,
    tr = before
         ++ Sent "no logging console" (Examples.PROMPT ConfigCommandMode)
         :: Matched text
         :: Sent "commit" (Examples.PROMPT ConfigCommandMode) :: after /\
    commands before =
      ["enter-enable"; "terminal length 0"; "terminal width 300"; "enter-config"].
Proof.
  apply (commit_sent_once Examples.PROMPT Examples.re_search Examples.healthy).
  reflexivity.
Defined.

(** On the healthy device "commit" is event 10, and the ordering theorem puts
    the match of the configuration prompt for "no logging console" at
    event 9. *)
Lemma steps_run_in_list_order_witness :
  exists text,
    nth_error
      (emitted Examples.healthy
         (fst (CliHandler.on_session_start Examples.PROMPT Examples.re_search
                 Examples.healthy))) 9 = Some (Matched text) /\
    Examples.re_search (Examples.PROMPT ConfigCommandMode) text = true.
Proof.
  destruct (steps_run_in_list_order Examples.PROMPT Examples.re_search
              on_session_start_steps Examples.healthy) as (_ & Horder & _).
  destruct (Horder 10 "commit" (Examples.PROMPT ConfigCommandMode) eq_refl)
    as (j & st & Hj & Hst & _ & _ & Hprev).
  assert (j = 5) by lia; subst j.
  destruct (Hprev 4 (mkStep "no logging console" ConfigCommandMode)) as [_ Hm];
    [lia | reflexivity | exact Hm].
Defined.

(** C4, counterexample.  The device answers two commands and then stays
    silent, so step 2 times out: the Sequencer fails at step 2, and three
    commands have been sent by then, not two. *)
Lemma timeout_on_third_step_sends_three :
  CliHandler.times_out_at Examples.PROMPT Examples.re_search 2
    on_session_start_steps (channel Examples.silent_after_two) /\
  snd (CliHandler.bringUp Examples.PROMPT Examples.re_search
         on_session_start_steps Examples.silent_after_two)
    = Failed 2 (Timeout "") /\
  CliHandler.on_session_start Examples.PROMPT Examples.re_search
    Examples.silent_after_two
    = (fst (CliHandler.bringUp Examples.PROMPT Examples.re_search
              on_session_start_steps Examples.silent_after_two),
       inl (TimeoutError "")) /\
  commands
    (emitted Examples.silent_after_two
       (fst (CliHandler.bringUp Examples.PROMPT Examples.re_search
               on_session_start_steps Examples.silent_after_two)))
    = ["enter-enable"; "terminal length 0"; "terminal width 300"] /\
  length
    (commands
       (emitted Examples.silent_after_two
          (fst (CliHandler.bringUp Examples.PROMPT Examples.re_search
                  on_session_start_steps Examples.silent_after_two)))) <> 2.
Proof.
  repeat split; try reflexivity.
  - simpl; lia.
  - discriminate.
Qed.

Lemma timeout_fails_at_step_witness :
  exists out,
    snd (CliHandler.bringUp Examples.PROMPT Examples.re_search
           on_session_start_steps Examples.silent_after_two)
      = Failed 2 (Timeout out) /\
    commands
      (emitted Examples.silent_after_two
         (fst (CliHandler.bringUp Examples.PROMPT Examples.re_search
                 on_session_start_steps Examples.silent_after_two)))
      = map commandText (firstn 3 on_session_start_steps) /\
    length
      (commands
         (emitted Examples.silent_after_two
            (fst (CliHandler.bringUp Examples.PROMPT Examples.re_search
                    on_session_start_steps Examples.silent_after_two)))) = 3 /\
    currentMode
      (fst (CliHandler.bringUp Examples.PROMPT Examples.re_search
              on_session_start_steps Examples.silent_after_two))
      = option_map (CliHandler.prompt_of Examples.PROMPT)
          (nth_error on_session_start_steps 1) /\
    (on_session_start_steps = on_session_start_steps ->
     CliHandler.on_session_start Examples.PROMPT Examples.re_search
       Examples.silent_after_two
       = (fst (CliHandler.bringUp Examples.PROMPT Examples.re_search
                 on_session_start_steps Examples.silent_after_two),
          inl (TimeoutError out))).
Proof.
  apply (timeout_fails_at_step Examples.PROMPT Examples.re_search
           on_session_start_steps 2 Examples.silent_after_two).
  split; [reflexivity | split; [simpl; lia | exact I]].
Defined.

Lemma same_replies_same_run_witness :
  snd (CliHandler.bringUp Examples.PROMPT Examples.re_search
         on_session_start_steps Examples.silent_after_two)
    = snd (CliHandler.bringUp Examples.PROMPT Examples.re_search
             on_session_start_steps Examples.reused) /\
  emitted Examples.silent_after_two
    (fst (CliHandler.bringUp Examples.PROMPT Examples.re_search
            on_session_start_steps Examples.silent_after_two))
    = emitted Examples.reused
        (fst (CliHandler.bringUp Examples.PROMPT Examples.re_search
                on_session_start_steps Examples.reused)) /\
  channel
    (fst (CliHandler.bringUp Examples.PROMPT Examples.re_search
            on_session_start_steps Examples.silent_after_two))
    = channel
        (fst (CliHandler.bringUp Examples.PROMPT Examples.re_search
                on_session_start_steps Examples.reused)) /\
  snd (CliHandler.on_session_start Examples.PROMPT Examples.re_search
         Examples.silent_after_two)
    = snd (CliHandler.on_session_start Examples.PROMPT Examples.re_search
             Examples.reused) /\
  emitted Examples.silent_after_two
    (fst (CliHandler.on_session_start Examples.PROMPT Examples.re_search
            Examples.silent_after_two))
    = emitted Examples.reused
        (fst (CliHandler.on_session_start Examples.PROMPT Examples.re_search
                Examples.reused)).
Proof.
  apply (same_replies_same_run Examples.PROMPT Examples.re_search
           on_session_start_steps Examples.silent_after_two Examples.reused).
  reflexivity.
Defined.

End CliHandlerFacts.

(* ===================================================================== *)
(** * Facts about the resource driver *)
(* ===================================================================== *)

Module DriverFacts.
Import PyMonad Driver.

(** Unfold a command method down to the collaborators' answers. *)
Ltac unfold_method :=
  cbv beta iota zeta delta
    [invoke initialize get_inventory run_custom_command run_custom_config_command
     ApplyConnectivityChanges save restore orchestration_save
     orchestration_restore load_firmware health_check shutdown
     GlobalLock_lock api_and_config self_cli_get_cli_handler delegate
     logger_info emit bind ret lift new_events].

(** Bring a trace into the shape [before ++ added] and drop [before]. *)
Ltac added_events :=
  repeat rewrite <- app_assoc;
  rewrite ?ListFacts.skipn_length_app, ?skipn_all; cbn [app].

Lemma py_or_empty (v d : PyStr) : empty v -> py_or v d = d.
Proof. intros [-> | ->]; reflexivity. Qed.

Lemma py_or_nonempty (v d : PyStr) : nonempty v -> py_or v d = v.
Proof.
  intros (t & -> & Ht). unfold py_or, truthy.
  destruct (String.eqb_spec t ""); [contradiction|reflexivity].
Qed.

Section Facts.

Variable P : Platform.

Local Abbreviation World := (World P).
Local Abbreviation invoke := (invoke P).
Local Abbreviation new_events := (new_events P).
Local Abbreviation delegated := (delegated P).
Local Abbreviation save := (save P).
Local Abbreviation restore := (restore P).
Local Abbreviation orchestration_save := (orchestration_save P).
Local Abbreviation load_firmware := (load_firmware P).
Local Abbreviation initialize := (initialize P).

Section Ready.

Variable context : Context P.
Variable resource_config : NetworkingResourceConfig.
Variable cli : CiscoIOSXRCli.
Variable w : World.

Hypothesis Hready : context_ready P context resource_config.
Hypothesis Hcli : _cli (self P w) = Some cli.

(** Run a method on the ready context and the initialized driver. *)
Ltac run_ready :=
  destruct Hready as (logger & api & Hl & Ha & Hr);
  destruct w as [[c] tr]; simpl in Hcli; subst c;
  unfold_method; rewrite Hl, Ha, Hr; cbn;
  repeat match goal with
         | |- context [match ?x with inl _ => _ | inr _ => _ end] =>
             destruct x; cbn
         end;
  added_events; reflexivity.

(** What [save] hands to the configuration flow. *)
Lemma save_delegates folder_path configuration_type vrf :
  delegated (new_events w (fst (save context folder_path configuration_type vrf w)))
  = [Configuration_save folder_path
       (py_or configuration_type (Some "running"))
       (py_or vrf (vrf_management_name resource_config))].
Proof. run_ready. Qed.

(** What [restore] hands to the configuration flow. *)
Lemma restore_delegates path configuration_type restore_method vrf :
  delegated
    (new_events w
       (fst (restore context path configuration_type restore_method vrf w)))
  = [Configuration_restore path
       (py_or restore_method (Some "override"))
       (py_or configuration_type (Some "running"))
       (py_or vrf (vrf_management_name resource_config))].
Proof. run_ready. Qed.

(** What [orchestration_save] hands to the configuration flow. *)
Lemma orchestration_save_delegates mode custom_params :
  delegated
    (new_events w (fst (orchestration_save context mode custom_params w)))
  = [Configuration_orchestration_save (py_or mode (Some "shallow")) custom_params].
Proof. run_ready. Qed.

(** What [load_firmware] hands to the firmware flow. *)
Lemma load_firmware_delegates path features_to_install vrf :
  delegated
    (new_events w (fst (load_firmware context path features_to_install vrf w)))
  = [Firmware_load_firmware features_to_install path
       (py_or vrf (vrf_management_name resource_config))].
Proof. run_ready. Qed.

(** C6. With the driver initialized and the context helpers working, [save]
    and [restore] each make one call to the configuration flow, and the
    [configuration_type] it receives is "running" when the caller passed an
    empty or absent one, and the caller's value unchanged otherwise. *)
Theorem configuration_type_defaults_to_running
        (folder_path path : string)
        (configuration_type restore_method vrf : PyStr) :
  exists forwarded,
    (exists v,
       delegated
         (new_events w (fst (save context folder_path configuration_type vrf w)))
       = [Configuration_save folder_path forwarded v]) /\
    (exists m v,
       delegated
         (new_events w
            (fst (restore context path configuration_type restore_method vrf w)))
       = [Configuration_restore path m forwarded v]) /\
    (empty configuration_type -> forwarded = Some "running") /\
    (nonempty configuration_type -> forwarded = configuration_type).
Proof.
  exists (py_or configuration_type (Some "running")).
  rewrite save_delegates, restore_delegates.
  repeat split; eauto using py_or_empty, py_or_nonempty.
Qed.

(** C10. With the driver initialized and the context helpers working, each of
    [save], [restore], [orchestration_save] and [load_firmware] makes one
    call to its flow, in which: [restore_method] is "override" when the
    caller's is empty or absent; [mode] is "shallow" when the caller's is
    empty or absent; [vrf_management_name] is the resource configuration's
    when the caller's is empty or absent; a non-empty value is the caller's,
    unchanged; and the arguments without a default ([folder_path], [path],
    [custom_params], [features_to_install]) are the caller's as passed. *)
Theorem optional_arguments_default
        (folder_path path features_to_install : string)
        (configuration_type restore_method vrf mode custom_params : PyStr) :
  exists method' mode' vrf' type',
    delegated
      (new_events w (fst (save context folder_path configuration_type vrf w)))
    = [Configuration_save folder_path type' vrf'] /\
    delegated
      (new_events w
         (fst (restore context path configuration_type restore_method vrf w)))
    = [Configuration_restore path method' type' vrf'] /\
    delegated
      (new_events w (fst (orchestration_save context mode custom_params w)))
    = [Configuration_orchestration_save mode' custom_params] /\
    delegated
      (new_events w (fst (load_firmware context path features_to_install vrf w)))
    = [Firmware_load_firmware features_to_install path vrf'] /\
    (empty restore_method -> method' = Some "override") /\
    (nonempty restore_method -> method' = restore_method) /\
    (empty mode -> mode' = Some "shallow") /\
    (nonempty mode -> mode' = mode) /\
    (empty vrf -> vrf' = vrf_management_name resource_config) /\
    (nonempty vrf -> vrf' = vrf).
Proof.
  exists (py_or restore_method (Some "override")),
         (py_or mode (Some "shallow")),
         (py_or vrf (vrf_management_name resource_config)),
         (py_or configuration_type (Some "running")).
  rewrite save_delegates, restore_delegates, orchestration_save_delegates,
    load_firmware_delegates.
  repeat split; auto using py_or_empty, py_or_nonempty.
Qed.

End Ready.

(** Split on every answer of a collaborator a method looks at. *)
Ltac split_answers :=
  repeat match goal with
         | |- context [match ?x with inl _ => _ | inr _ => _ end] =>
             destruct x; cbn
         | |- context [match ?x with Some _ => _ | None => _ end] =>
             destruct x; cbn
         end.

(** No command method assigns to [self._cli]. *)
Lemma invoke_keeps_cli (c : Command) (context : Context P) (w : World) :
  _cli (self P (fst (invoke c context w))) = _cli (self P w).
Proof.
  destruct w as [[cli] tr]; destruct c; unfold_method; cbn;
    split_answers; reflexivity.
Qed.

(** On a driver whose [_cli] is [None] every command method raises, and
    nothing was delegated to a flow by then. *)
Lemma invoke_uninitialized (c : Command) (context : Context P) (w : World) :
  _cli (self P w) = None ->
  (exists e, snd (invoke c context w) = inl e) /\
  delegated (new_events w (fst (invoke c context w))) = [].
Proof.
  destruct w as [[cli] tr]; simpl; intros ->.
  destruct c; unfold_method; cbn; split_answers;
    (split; [eauto | added_events; reflexivity]).
Qed.

(** With the context helpers working, what it raises is the attribute error
    of the lookup on [None]. *)
Lemma invoke_uninitialized_ready (c : Command) (context : Context P)
      (w : World) (resource_config : NetworkingResourceConfig) :
  _cli (self P w) = None ->
  context_ready P context resource_config ->
  snd (invoke c context w)
  = inl (AttributeError "'NoneType' object has no attribute 'get_cli_handler'").
Proof.
  destruct w as [[cli] tr]; simpl; intros -> (logger & api & Hl & Ha & Hr).
  destruct c; unfold_method; rewrite Hl, Ha, Hr; reflexivity.
Qed.

Lemma initialize_sets_cli (context : Context P) (w w' : World) (v : string) :
  initialize context w = (w', inr v) ->
  exists cli, _cli (self P w') = Some cli.
Proof.
  destruct w as [d tr]; unfold_method.
  destruct (get_api P context); [discriminate|].
  destruct (from_context P context _); [discriminate|].
  intros H; inversion H; subst; cbn. eauto.
Qed.

(** When the context helpers answer, [initialize] returns and [_cli] is the
    CLI built from the resource configuration that was read. *)
Lemma initialize_succeeds (context : Context P) (w : World) (api : Api P)
      (resource_config : NetworkingResourceConfig) :
  get_api P context = inr api ->
  from_context P context api = inr resource_config ->
  initialize context w
  = (mkWorld P (mkDriver (Some (mkCli resource_config))) (trace P w),
     inr "Finished initializing").
Proof.
  intros Ha Hr. destruct w as [d tr]; unfold_method. now rewrite Ha, Hr.
Qed.

(** C9. For each of the eleven command methods that use the CLI: on a driver
    whose [_cli] is still [None] the call raises, without anything having
    been delegated to a flow (no device interaction), and when the context
    helpers work what it raises is the attribute error of the lookup on
    [self._cli]; [initialize] returns whenever the API session and the
    resource configuration can be had, and then [_cli] is set, to the CLI
    built from that configuration; whenever [initialize] returns, [_cli] is
    set; no command method changes [_cli], so that after [initialize] it
    stays the CLI [initialize] built, whichever command is run. *)
Theorem cli_is_needed_and_kept (c : Command) (context : Context P) (w : World) :
  (_cli (self P w) = None ->
   (exists e, snd (invoke c context w) = inl e) /\
   delegated (new_events w (fst (invoke c context w))) = [] /\
   forall resource_config,
     context_ready P context resource_config ->
     snd (invoke c context w)
     = inl (AttributeError
              "'NoneType' object has no attribute 'get_cli_handler'")) /\
  (forall w' v,
     initialize context w = (w', inr v) ->
     exists cli, _cli (self P w') = Some cli) /\
  (forall api resource_config,
     get_api P context = inr api ->
     from_context P context api = inr resource_config ->
     initialize context w
     = (mkWorld P (mkDriver (Some (mkCli resource_config))) (trace P w),
        inr "Finished initializing") /\
     forall context',
       _cli (self P (fst (invoke c context' (fst (initialize context w)))))
       = Some (mkCli resource_config)) /\
  _cli (self P (fst (invoke c context w))) = _cli (self P w).
Proof.
  split; [|split; [|split]].
  - intros Hnone. destruct (invoke_uninitialized c context w Hnone) as [Hr Hq].
    repeat split; auto.
    intros rc Hrc. now apply (invoke_uninitialized_ready c context w rc).
  - intros w' v. apply initialize_sets_cli.
  - intros api rc Ha Hr. split; [now apply (initialize_succeeds context w api)|].
    intros context'. rewrite invoke_keeps_cli.
    now rewrite (initialize_succeeds context w api rc Ha Hr).
  - apply invoke_keeps_cli.
Qed.

End Facts.

Lemma configuration_type_defaults_to_running_witness :
  exists forwarded,
    (exists v,
       delegated Examples.platform
         (new_events Examples.platform Examples.initialized
            (fst (save Examples.platform tt "ftp://server/folder" (Some "")
                    None Examples.initialized)))
       = [Configuration_save "ftp://server/folder" forwarded v]) /\
    (exists m v,
       delegated Examples.platform
         (new_events Examples.platform Examples.initialized
            (fst (restore Examples.platform tt "ftp://server/file" (Some "")
                    (Some "append") None Examples.initialized)))
       = [Configuration_restore "ftp://server/file" m forwarded v]) /\
    (empty (Some "") -> forwarded = Some "running") /\
    (nonempty (Some "") -> forwarded = Some "").
Proof.
  apply (configuration_type_defaults_to_running Examples.platform tt
           Examples.resource_config (mkCli Examples.resource_config)
           Examples.initialized).
  - exists tt, tt. repeat split; reflexivity.
  - reflexivity.
Defined.

Lemma optional_arguments_default_witness :
  exists method' mode' vrf' type',
    delegated Examples.platform
      (new_events Examples.platform Examples.initialized
         (fst (save Examples.platform tt "ftp://server/folder" (Some "startup")
                 (Some "") Examples.initialized)))
    = [Configuration_save "ftp://server/folder" type' vrf'] /\
    delegated Examples.platform
      (new_events Examples.platform Examples.initialized
         (fst (restore Examples.platform tt "ftp://server/file" (Some "startup")
                 None (Some "") Examples.initialized)))
    = [Configuration_restore "ftp://server/file" method' type' vrf'] /\
    delegated Examples.platform
      (new_events Examples.platform Examples.initialized
         (fst (orchestration_save Examples.platform tt None None
                 Examples.initialized)))
    = [Configuration_orchestration_save mode' None] /\
    delegated Examples.platform
      (new_events Examples.platform Examples.initialized
         (fst (load_firmware Examples.platform tt "ftp://server/file" ""
                 (Some "") Examples.initialized)))
    = [Firmware_load_firmware "" "ftp://server/file" vrf'] /\
    (empty None -> method' = Some "override") /\
    (nonempty None -> method' = None) /\
    (empty None -> mode' = Some "shallow") /\
    (nonempty None -> mode' = None) /\
    (empty (Some "") -> vrf' = vrf_management_name Examples.resource_config) /\
    (nonempty (Some "") -> vrf' = Some "").
Proof.
  apply (optional_arguments_default Examples.platform tt
           Examples.resource_config (mkCli Examples.resource_config)
           Examples.initialized).
  - exists tt, tt. repeat split; reflexivity.
  - reflexivity.
Defined.

(** [health_check] on a driver that was never initialized; then [initialize]
    on that driver, and [health_check] again. *)
Lemma cli_is_needed_and_kept_witness :
  ((exists e,
      snd (invoke Examples.platform Call_health_check tt Examples.uninitialized)
      = inl e) /\
   delegated Examples.platform
     (new_events Examples.platform Examples.uninitialized
        (fst (invoke Examples.platform Call_health_check tt Examples.uninitialized)))
   = [] /\
   snd (invoke Examples.platform Call_health_check tt Examples.uninitialized)
   = inl (AttributeError "'NoneType' object has no attribute 'get_cli_handler'")) /\
  initialize Examples.platform tt Examples.uninitialized
  = (Examples.initialized, inr "Finished initializing") /\
  _cli
    (self Examples.platform
       (fst (invoke Examples.platform Call_health_check tt
               (fst (initialize Examples.platform tt Examples.uninitialized)))))
  = Some (mkCli Examples.resource_config).
Proof.
  destruct (cli_is_needed_and_kept Examples.platform Call_health_check tt
              Examples.uninitialized) as (Hnone & _ & Hinit & _).
  destruct (Hnone eq_refl) as (Hraise & Hquiet & Herror).
  destruct (Hinit tt Examples.resource_config eq_refl eq_refl) as (Hrun & Hkept).
  split; [split; [exact Hraise | split; [exact Hquiet |]] | split].
  - apply (Herror Examples.resource_config).
    exists tt, tt. repeat split; reflexivity.
  - exact Hrun.
  - exact (Hkept tt).
Defined.

End DriverFacts.

(* ===================================================================== *)
(** * More about [on_session_start] *)
(* ===================================================================== *)

Module CliHandlerExtras.
Import PyMonad CliHandler CliHandlerFacts.

Section Extras.

Variable PROMPT : CommandMode -> string.
Variable re_search : string -> string -> bool.

Local Abbreviation run_from := (run_from PROMPT re_search).
Local Abbreviation bringUp := (bringUp PROMPT re_search).
Local Abbreviation on_session_start := (on_session_start PROMPT re_search).
Local Abbreviation answers := (answers PROMPT re_search).
Local Abbreviation answered := (answered PROMPT re_search).
Local Abbreviation mode_after := (mode_after PROMPT).

(** X1. [on_session_start] returns normally exactly when the device answers
    each of its seven commands with output in which the expected prompt
    matches; in every other case it raises. *)
Theorem returns_iff_all_answered (s : Session) :
  snd (on_session_start s) = inr tt <->
  answers on_session_start_steps (channel s) = true.
Proof.
  rewrite on_session_start_run, answers_answered.
  unfold CliHandler.bringUp; cbn [snd]. rewrite run_from_state.
  pose proof (answered_le PROMPT re_search on_session_start_steps (channel s)) as Hle.
  destruct (nth_error on_session_start_steps _) eqn:E.
  - assert (answered on_session_start_steps (channel s)
            < length on_session_start_steps)
      by (apply nth_error_Some; congruence).
    destruct (result_of_reason_at
                (0 + answered on_session_start_steps (channel s))
                (nth_error (channel s) (answered on_session_start_steps (channel s))))
      as (e & -> & _).
    split; [discriminate | lia].
  - apply nth_error_None in E. split; [lia | reflexivity].
Qed.

(** X2. A failure leaves the session where the last answered statement put
    it, and nothing is sent to undo it: failing at the first statement the
    session keeps the mode it came with; failing at statement 1, 2 or 3 it is
    at the enable prompt; failing at statement 4, 5 or 6, after configuration
    mode was entered, it is left at the configuration prompt; and unless the
    failing statement is the last one, "exit" was never sent. *)
Theorem failure_leaves_mode (s : Session) (i : nat) (r : Reason) :
  outcome s (on_session_start s) = Failed i r ->
  currentMode (fst (on_session_start s)) =
    (if Nat.eqb i 0 then currentMode s
     else if Nat.leb i 3 then Some (PROMPT EnableCommandMode)
          else Some (PROMPT ConfigCommandMode)) /\
  (i <= 5 -> ~ In "exit" (commands (emitted s (fst (on_session_start s))))).
Proof.
  rewrite outcome_on_session_start, on_session_start_run.
  unfold CliHandler.bringUp; cbn [fst]. rewrite run_from_state.
  rewrite emitted_run_from, commands_script.
  rewrite run_from_closed; cbv zeta; cbn [currentMode].
  remember (answered on_session_start_steps (channel s)) as k eqn:Hk; clear Hk.
  destruct (nth_error on_session_start_steps k) eqn:E; [|discriminate].
  assert (Hlt : k < 7)
    by (apply (proj1 (nth_error_Some on_session_start_steps k)); congruence).
  intros H; injection H as Hi _; cbn [Nat.add] in Hi; subst i.
  apply Nat.ltb_lt in Hlt as Hb. change (length on_session_start_steps) with 7.
  rewrite Hb.
  destruct k as [|[|[|[|[|[|[|k]]]]]]]; try lia;
    (split; [reflexivity | intros Hi5; simpl; try lia; intuition discriminate]).
Qed.

End Extras.

Lemma failure_leaves_mode_witness :
  currentMode
    (fst (CliHandler.on_session_start Examples.PROMPT Examples.re_search
            Examples.silent_after_two))
  = Some (Examples.PROMPT EnableCommandMode) /\
  (2 <= 5 ->
   ~ In "exit"
       (commands
          (emitted Examples.silent_after_two
             (fst (CliHandler.on_session_start Examples.PROMPT Examples.re_search
                     Examples.silent_after_two))))).
Proof.
  apply (failure_leaves_mode Examples.PROMPT Examples.re_search
           Examples.silent_after_two 2 (Timeout "")).
  reflexivity.
Defined.

End CliHandlerExtras.

(* ===================================================================== *)
(** * More about the resource driver *)
(* ===================================================================== *)

Module DriverExtras.
Import PyMonad Driver DriverFacts.

(** Split on every answer of a collaborator a method looks at, keeping the
    answers. *)
Ltac split_answers :=
  repeat match goal with
         | |- context [match ?x with inl _ => _ | inr _ => _ end] =>
             destruct x eqn:?; cbn
         | |- context [match ?x with Some _ => _ | None => _ end] =>
             destruct x eqn:?; cbn
         end.

(** Run every command method on every answer of its collaborators. *)
Ltac all_runs w c :=
  destruct w as [[?cli] ?tr]; destruct c; unfold_method; cbn;
  split_answers; added_events; cbn.

Lemma py_or_truthy (v d : PyStr) : truthy d = true -> truthy (py_or v d) = true.
Proof. intros H; unfold py_or; destruct (truthy v) eqn:E; congruence. Qed.

Section Extras.

Variable P : Platform.

Local Abbreviation World := (World P).
Local Abbreviation invoke := (invoke P).
Local Abbreviation initialize := (initialize P).
Local Abbreviation new_events := (new_events P).
Local Abbreviation delegated := (delegated P).
Local Abbreviation logged := (logged P).

(** X4. Whatever the collaborators answer, a command method calls a flow at
    most once. *)
Theorem at_most_one_flow_call (c : Command) (context : Context P) (w : World) :
  length (delegated (new_events w (fst (invoke c context w)))) <= 1.
Proof. all_runs w c; lia. Qed.

(** X5. There is no [except] in the driver: when the flow call a method makes
    raises, the method raises that same exception. *)
Theorem flow_exception_propagates (c : Command) (context : Context P) (w : World)
        (call : FlowCall (RestoreParams P)) (e : Exception) :
  In call (delegated (new_events w (fst (invoke c context w)))) ->
  flow P call = inl e ->
  snd (invoke c context w) = inl e.
Proof.
  all_runs w c; intros Hin Hflow; try contradiction;
    destruct Hin as [<- | []];
    match goal with
    | H : flow P ?x = _ |- _ =>
        rewrite H in Hflow; try discriminate Hflow; injection Hflow as ->
    end; reflexivity.
Qed.

(** X6. A command method returns normally only after its one flow call was
    made and answered; what it returns is the flow's answer, [None] for the
    methods without a [return] ([restore], [orchestration_restore],
    [load_firmware], [shutdown]), and for [orchestration_save] the result the
    save/restore helper prepares from the flow's answer. *)
Theorem success_means_flow_answered (c : Command) (context : Context P)
        (w : World) (value : PyStr) :
  snd (invoke c context w) = inr value ->
  exists call response,
    delegated (new_events w (fst (invoke c context w))) = [call] /\
    flow P call = inr response /\
    returns P c response value.
Proof.
  all_runs w c; intros H; try discriminate H; injection H as <-;
    eauto 8.
Qed.

(** X7. The message that reports a command as completed is logged exactly
    when the method returns normally: a call that raises never logs it, and
    a request text passed to [ApplyConnectivityChanges] cannot fake it. *)
Theorem completion_logged_iff_success (c : Command) (context : Context P)
        (w : World) :
  existsb is_completion (logged (new_events w (fst (invoke c context w)))) = true
  <-> exists value, snd (invoke c context w) = inr value.
Proof.
  all_runs w c;
    (split; [intros H; try discriminate H; eauto
            | intros [v H]; try discriminate H; reflexivity]).
Qed.

(** X8. The lock is taken by the three decorated methods and by no other:
    [get_inventory], [restore] and [load_firmware] take it before anything
    else they do, so that their logging and their flow call come after it;
    the other eight methods never touch it. *)
Theorem lock_taken_by_decorated_methods (c : Command) (context : Context P)
        (w : World) :
  existsb (is_lock_event P) (new_events w (fst (invoke c context w))) = locked c /\
  (locked c = true ->
   hd_error (new_events w (fst (invoke c context w))) = Some (LockAcquired P)).
Proof.
  all_runs w c; split; try reflexivity; try discriminate.
Qed.

(** X9. [initialize] is all or nothing and silent: it logs nothing and calls
    no flow; when it returns, it returns "Finished initializing" and [_cli]
    is the CLI built from the resource configuration read from the context,
    replacing whatever was there; when a context helper raises, it raises
    the same and the driver is as it was, a [_cli] set earlier included. *)
Theorem initialize_all_or_nothing (context : Context P) (w : World) :
  trace P (fst (initialize context w)) = trace P w /\
  match snd (initialize context w) with
  | inr value =>
      value = "Finished initializing" /\
      exists api resource_config,
        get_api P context = inr api /\
        from_context P context api = inr resource_config /\
        self P (fst (initialize context w)) = mkDriver (Some (mkCli resource_config))
  | inl e =>
      fst (initialize context w) = w /\
      (get_api P context = inl e \/
       exists api, get_api P context = inr api /\ from_context P context api = inl e)
  end.
Proof.
  destruct w as [d tr]; unfold_method.
  destruct (get_api P context) as [e|api] eqn:Ha; cbn; [auto|].
  destruct (from_context P context api) as [e|rc] eqn:Hr; cbn; eauto 8.
Qed.

(** X11. Whatever a caller passes and whatever the collaborators answer, the
    configuration flow never receives an empty or absent
    [configuration_type], [restore_method] or [mode] from [save], [restore]
    or [orchestration_save]. *)
Theorem defaults_always_filled (c : Command) (context : Context P) (w : World) :
  forallb (defaults_filled P)
    (delegated (new_events w (fst (invoke c context w)))) = true.
Proof.
  all_runs w c; rewrite ?py_or_truthy by reflexivity; reflexivity.
Qed.

(** X12. When a context helper raises (the logger does not open, the API
    session or the resource configuration cannot be had) the command method
    raises the same exception and no flow is called; when it is the logger
    that fails, nothing is logged either. *)
Theorem context_failure_propagates (c : Command) (context : Context P)
        (w : World) (e : Exception) :
  (LoggingSessionContext P context = inl e ->
   snd (invoke c context w) = inl e /\
   logged (new_events w (fst (invoke c context w))) = [] /\
   delegated (new_events w (fst (invoke c context w))) = []) /\
  (forall logger,
     LoggingSessionContext P context = inr logger ->
     get_api P context = inl e ->
     snd (invoke c context w) = inl e /\
     delegated (new_events w (fst (invoke c context w))) = []) /\
  (forall logger api,
     LoggingSessionContext P context = inr logger ->
     get_api P context = inr api ->
     from_context P context api = inl e ->
     snd (invoke c context w) = inl e /\
     delegated (new_events w (fst (invoke c context w))) = []).
Proof.
  destruct w as [[cli] tr].
  split; [|split].
  - intros Hl. destruct c; unfold_method; rewrite Hl; cbn;
      added_events; auto.
  - intros logger Hl Ha. destruct c; unfold_method; rewrite Hl, Ha; cbn;
      added_events; auto.
  - intros logger api Hl Ha Hr. destruct c; unfold_method; rewrite Hl, Ha, Hr; cbn;
      added_events; auto.
Qed.

End Extras.

(** [health_check] on an initialized driver whose device cannot be reached. *)
Lemma flow_exception_propagates_witness :
  snd (invoke Examples.unreachable Call_health_check tt
         (mkWorld Examples.unreachable
            (mkDriver (Some (mkCli Examples.resource_config))) []))
  = inl (CollaboratorError "session timeout").
Proof.
  apply (flow_exception_propagates Examples.unreachable Call_health_check tt
           (mkWorld Examples.unreachable
              (mkDriver (Some (mkCli Examples.resource_config))) [])
           State_health_check (CollaboratorError "session timeout")).
  - simpl. left. reflexivity.
  - reflexivity.
Defined.

(** [orchestration_save] on the platform where everything works. *)
Lemma success_means_flow_answered_witness :
  exists call response,
    delegated Examples.platform
      (new_events Examples.platform Examples.initialized
         (fst (invoke Examples.platform (Call_orchestration_save None None) tt
                 Examples.initialized))) = [call] /\
    flow Examples.platform call = inr response /\
    returns Examples.platform (Call_orchestration_save None None) response
      (Some "ok").
Proof.
  apply (success_means_flow_answered Examples.platform
           (Call_orchestration_save None None) tt Examples.initialized (Some "ok")).
  reflexivity.
Defined.

(** [load_firmware] takes the lock first. *)
Lemma lock_taken_by_decorated_methods_witness :
  hd_error
    (new_events Examples.platform Examples.initialized
       (fst (invoke Examples.platform (Call_load_firmware "ftp://server/file" "" None)
               tt Examples.initialized)))
  = Some (LockAcquired Examples.platform).
Proof.
  apply (lock_taken_by_decorated_methods Examples.platform
           (Call_load_firmware "ftp://server/file" "" None) tt Examples.initialized).
  reflexivity.
Defined.

(** [shutdown] when the logging session does not open. *)
Lemma context_failure_propagates_witness :
  snd (invoke Examples.no_logger Call_shutdown tt
         (mkWorld Examples.no_logger
            (mkDriver (Some (mkCli Examples.resource_config))) []))
  = inl (CollaboratorError "no log folder") /\
  logged Examples.no_logger
    (new_events Examples.no_logger
       (mkWorld Examples.no_logger
          (mkDriver (Some (mkCli Examples.resource_config))) [])
       (fst (invoke Examples.no_logger Call_shutdown tt
               (mkWorld Examples.no_logger
                  (mkDriver (Some (mkCli Examples.resource_config))) [])))) = [] /\
  delegated Examples.no_logger
    (new_events Examples.no_logger
       (mkWorld Examples.no_logger
          (mkDriver (Some (mkCli Examples.resource_config))) [])
       (fst (invoke Examples.no_logger Call_shutdown tt
               (mkWorld Examples.no_logger
                  (mkDriver (Some (mkCli Examples.resource_config))) [])))) = [].
Proof.
  apply (context_failure_propagates Examples.no_logger Call_shutdown tt
           (mkWorld Examples.no_logger
              (mkDriver (Some (mkCli Examples.resource_config))) [])
           (CollaboratorError "no log folder")).
  reflexivity.
Defined.

End DriverExtras.
